(** * Servo sweep firmware (src/device/servo.cpp): model and properties

    The translation unit is an STM32 HAL program: [main] initialises the
    HAL, the clock tree, one GPIO pin and timer TIM3 channel 1 as a PWM
    output, starts the PWM and then rewrites the compare register with
    three constants, one second apart, for ever.

    The program is embedded as an interaction tree whose events are the
    calls and register macros of the HAL header (which is not part of the
    sources: its enumerators appear here under their own names, as
    constructors).  The only software state, the global handle [htim3],
    is passed explicitly. *)

From Stdlib Require Import ZArith QArith List Lia Bool.
From ITree Require Import ITree.
Import ListNotations.
Import ITreeNotations.
Local Open Scope itree_scope.
Local Open Scope Z_scope.

Set Implicit Arguments.

(* ===================================================================== *)
(** ** Enumerators of the HAL header named by the source *)
(* ===================================================================== *)

(** Return status of the HAL functions. *)
Inductive HAL_StatusTypeDef : Type :=
| HAL_OK | HAL_ERROR | HAL_BUSY | HAL_TIMEOUT.

Inductive VoltageScale : Type :=
| PWR_REGULATOR_VOLTAGE_SCALE1
| PWR_REGULATOR_VOLTAGE_SCALE2
| PWR_REGULATOR_VOLTAGE_SCALE3.

Inductive RCC_OscillatorType_t : Type :=
| RCC_OSCILLATORTYPE_NONE
| RCC_OSCILLATORTYPE_HSE
| RCC_OSCILLATORTYPE_HSI
| RCC_OSCILLATORTYPE_LSE
| RCC_OSCILLATORTYPE_LSI.

Inductive RCC_HSIState_t : Type := RCC_HSI_OFF | RCC_HSI_ON.

Inductive RCC_PLLState_t : Type := RCC_PLL_NONE | RCC_PLL_OFF | RCC_PLL_ON.

Inductive RCC_PLLSource_t : Type := RCC_PLLSOURCE_HSI | RCC_PLLSOURCE_HSE.

Inductive RCC_PLLP_t : Type :=
| RCC_PLLP_DIV2 | RCC_PLLP_DIV4 | RCC_PLLP_DIV6 | RCC_PLLP_DIV8.

Inductive ClockTypeFlag : Type :=
| RCC_CLOCKTYPE_SYSCLK
| RCC_CLOCKTYPE_HCLK
| RCC_CLOCKTYPE_PCLK1
| RCC_CLOCKTYPE_PCLK2.

Inductive RCC_SYSCLKSource_t : Type :=
| RCC_SYSCLKSOURCE_HSI
| RCC_SYSCLKSOURCE_HSE
| RCC_SYSCLKSOURCE_PLLCLK.

Inductive AHBDivider : Type :=
| RCC_SYSCLK_DIV1 | RCC_SYSCLK_DIV2 | RCC_SYSCLK_DIV4 | RCC_SYSCLK_DIV8
| RCC_SYSCLK_DIV16 | RCC_SYSCLK_DIV64 | RCC_SYSCLK_DIV128
| RCC_SYSCLK_DIV256 | RCC_SYSCLK_DIV512.

Inductive APBDivider : Type :=
| RCC_HCLK_DIV1 | RCC_HCLK_DIV2 | RCC_HCLK_DIV4 | RCC_HCLK_DIV8
| RCC_HCLK_DIV16.

Inductive FlashLatency : Type :=
| FLASH_LATENCY_0 | FLASH_LATENCY_1 | FLASH_LATENCY_2 | FLASH_LATENCY_3
| FLASH_LATENCY_4 | FLASH_LATENCY_5 | FLASH_LATENCY_6 | FLASH_LATENCY_7.

Inductive GPIO_Port : Type := GPIOA | GPIOB | GPIOC | GPIOD | GPIOE | GPIOH.

Inductive GPIO_Mode : Type :=
| GPIO_MODE_INPUT | GPIO_MODE_OUTPUT_PP | GPIO_MODE_OUTPUT_OD
| GPIO_MODE_AF_PP | GPIO_MODE_AF_OD | GPIO_MODE_ANALOG.

Inductive GPIO_Pull : Type := GPIO_NOPULL | GPIO_PULLUP | GPIO_PULLDOWN.

Inductive GPIO_Speed : Type :=
| GPIO_SPEED_FREQ_LOW | GPIO_SPEED_FREQ_MEDIUM
| GPIO_SPEED_FREQ_HIGH | GPIO_SPEED_FREQ_VERY_HIGH.

Inductive GPIO_Alternate : Type :=
| GPIO_AF0 | GPIO_AF1_TIM1 | GPIO_AF1_TIM2 | GPIO_AF2_TIM3
| GPIO_AF2_TIM4 | GPIO_AF2_TIM5.

Inductive TIM_TypeDef : Type := TIM1 | TIM2 | TIM3 | TIM4 | TIM5.

Inductive TIM_CounterMode : Type :=
| TIM_COUNTERMODE_UP | TIM_COUNTERMODE_DOWN
| TIM_COUNTERMODE_CENTERALIGNED1 | TIM_COUNTERMODE_CENTERALIGNED2
| TIM_COUNTERMODE_CENTERALIGNED3.

Inductive TIM_ClockDivision : Type :=
| TIM_CLOCKDIVISION_DIV1 | TIM_CLOCKDIVISION_DIV2 | TIM_CLOCKDIVISION_DIV4.

Inductive TIM_OCMode : Type :=
| TIM_OCMODE_TIMING | TIM_OCMODE_ACTIVE | TIM_OCMODE_INACTIVE
| TIM_OCMODE_TOGGLE | TIM_OCMODE_PWM1 | TIM_OCMODE_PWM2.

Inductive TIM_OCPolarity : Type := TIM_OCPOLARITY_HIGH | TIM_OCPOLARITY_LOW.

Inductive TIM_OCFastMode : Type := TIM_OCFAST_DISABLE | TIM_OCFAST_ENABLE.

Inductive TIM_Channel : Type :=
| TIM_CHANNEL_1 | TIM_CHANNEL_2 | TIM_CHANNEL_3 | TIM_CHANNEL_4.

(** [RCC_HSICALIBRATION_DEFAULT] is an integer of the header that the
    source only passes on; it is kept symbolic. *)
Inductive HSICalibration : Type :=
| RCC_HSICALIBRATION_DEFAULT
| HSICalibrationTrim (v : Z).

(* ===================================================================== *)
(** ** Configuration records

    Each record holds the fields that the translation unit assigns; the
    other fields of the C structs keep the zero of their [= {0}]
    initialiser and are never named by the source. *)
(* ===================================================================== *)

Record RCC_PLLInitTypeDef : Type := {
  PLLState : RCC_PLLState_t;
  PLLSource : RCC_PLLSource_t;
  PLLM : Z;
  PLLN : Z;
  PLLP : RCC_PLLP_t;
  PLLQ : Z
}.

Record RCC_OscInitTypeDef : Type := {
  OscillatorType : RCC_OscillatorType_t;
  HSIState : RCC_HSIState_t;
  HSICalibrationValue : HSICalibration;
  PLL : RCC_PLLInitTypeDef
}.

Record RCC_ClkInitTypeDef : Type := {
  ClockType : list ClockTypeFlag;
  SYSCLKSource : RCC_SYSCLKSource_t;
  AHBCLKDivider : AHBDivider;
  APB1CLKDivider : APBDivider;
  APB2CLKDivider : APBDivider
}.

Record GPIO_InitTypeDef : Type := {
  Pin : Z;
  Mode : GPIO_Mode;
  Pull : GPIO_Pull;
  Speed : GPIO_Speed;
  Alternate : GPIO_Alternate
}.

Record TIM_Base_InitTypeDef : Type := {
  Prescaler : Z;
  CounterMode : TIM_CounterMode;
  Period : Z;
  ClockDivision : TIM_ClockDivision
}.

(** The handle: the two members that the source writes.  The members
    that only the HAL maintains (state, lock, channel) are not visible to
    the program. *)
Record TIM_HandleTypeDef : Type := {
  Instance : option TIM_TypeDef;
  Init : TIM_Base_InitTypeDef
}.

Record TIM_OC_InitTypeDef : Type := {
  OCMode : TIM_OCMode;
  Pulse : Z;
  OCPolarity : TIM_OCPolarity;
  OCFastMode : TIM_OCFastMode
}.

(** [GPIO_PIN_6]: the pin mask of pin number 6. *)
Definition GPIO_PIN_6 : Z := Z.shiftl 1 6.

(** Bitwise or of clock-type flags: the flags are distinct bits, so the
    disjunction is the collection of the flags. *)
Definition flag_or (a b : list ClockTypeFlag) : list ClockTypeFlag := a ++ b.

(* ===================================================================== *)
(** ** Events: the HAL calls and macros used by the source *)
(* ===================================================================== *)

Variant halE : Type -> Type :=
| HAL_Init : halE HAL_StatusTypeDef
| __HAL_RCC_PWR_CLK_ENABLE : halE unit
| __HAL_PWR_VOLTAGESCALING_CONFIG (v : VoltageScale) : halE unit
| HAL_RCC_OscConfig (osc : RCC_OscInitTypeDef) : halE HAL_StatusTypeDef
| HAL_RCC_ClockConfig (clk : RCC_ClkInitTypeDef) (FLatency : FlashLatency)
    : halE HAL_StatusTypeDef
| __HAL_RCC_GPIOA_CLK_ENABLE : halE unit
| HAL_GPIO_Init (port : GPIO_Port) (gpio : GPIO_InitTypeDef) : halE unit
| __HAL_RCC_TIM3_CLK_ENABLE : halE unit
| HAL_TIM_PWM_Init (htim : TIM_HandleTypeDef) : halE HAL_StatusTypeDef
| HAL_TIM_PWM_ConfigChannel (htim : TIM_HandleTypeDef)
    (sConfig : TIM_OC_InitTypeDef) (Channel : TIM_Channel)
    : halE HAL_StatusTypeDef
| HAL_TIM_PWM_Start (htim : TIM_HandleTypeDef) (Channel : TIM_Channel)
    : halE HAL_StatusTypeDef
| __HAL_TIM_SET_COMPARE (htim : TIM_HandleTypeDef) (Channel : TIM_Channel)
    (compare : Z) : halE unit
| HAL_Delay (ms : Z) : halE unit.

(** A call as it appears in a trace: the event without its answer. *)
Definition hal_call : Type := { T : Type & halE T }.

Definition call {T} (e : halE T) : hal_call := existT _ T e.

(* ===================================================================== *)
(** ** The program *)
(* ===================================================================== *)

(** The global [TIM_HandleTypeDef htim3;] before [main] runs: static
    storage, all zero (null instance, zero prescaler and period). *)
Definition htim3_reset : TIM_HandleTypeDef :=
  {| Instance := None;
     Init := {| Prescaler := 0;
                CounterMode := TIM_COUNTERMODE_UP;
                Period := 0;
                ClockDivision := TIM_CLOCKDIVISION_DIV1 |} |}.

Definition set_Instance (i : TIM_TypeDef) (h : TIM_HandleTypeDef) :=
  {| Instance := Some i; Init := Init h |}.
Definition set_Prescaler (v : Z) (h : TIM_HandleTypeDef) :=
  {| Instance := Instance h;
     Init := {| Prescaler := v;
                CounterMode := CounterMode (Init h);
                Period := Period (Init h);
                ClockDivision := ClockDivision (Init h) |} |}.
Definition set_CounterMode (v : TIM_CounterMode) (h : TIM_HandleTypeDef) :=
  {| Instance := Instance h;
     Init := {| Prescaler := Prescaler (Init h);
                CounterMode := v;
                Period := Period (Init h);
                ClockDivision := ClockDivision (Init h) |} |}.
Definition set_Period (v : Z) (h : TIM_HandleTypeDef) :=
  {| Instance := Instance h;
     Init := {| Prescaler := Prescaler (Init h);
                CounterMode := CounterMode (Init h);
                Period := v;
                ClockDivision := ClockDivision (Init h) |} |}.
Definition set_ClockDivision (v : TIM_ClockDivision) (h : TIM_HandleTypeDef) :=
  {| Instance := Instance h;
     Init := {| Prescaler := Prescaler (Init h);
                CounterMode := CounterMode (Init h);
                Period := Period (Init h);
                ClockDivision := v |} |}.

(** [void SystemClock_Config(void)]; both statuses are dropped. *)
Definition SystemClock_Config : itree halE unit :=
  ITree.trigger __HAL_RCC_PWR_CLK_ENABLE ;;
  ITree.trigger (__HAL_PWR_VOLTAGESCALING_CONFIG PWR_REGULATOR_VOLTAGE_SCALE1) ;;
  let RCC_OscInitStruct :=
    {| OscillatorType := RCC_OSCILLATORTYPE_HSI;
       HSIState := RCC_HSI_ON;
       HSICalibrationValue := RCC_HSICALIBRATION_DEFAULT;
       PLL := {| PLLState := RCC_PLL_ON;
                 PLLSource := RCC_PLLSOURCE_HSI;
                 PLLM := 16;
                 PLLN := 336;
                 PLLP := RCC_PLLP_DIV4;
                 PLLQ := 7 |} |} in
  ITree.trigger (HAL_RCC_OscConfig RCC_OscInitStruct) ;;
  let RCC_ClkInitStruct :=
    {| ClockType :=
         flag_or (flag_or (flag_or [RCC_CLOCKTYPE_HCLK] [RCC_CLOCKTYPE_SYSCLK])
                          [RCC_CLOCKTYPE_PCLK1])
                 [RCC_CLOCKTYPE_PCLK2];
       SYSCLKSource := RCC_SYSCLKSOURCE_PLLCLK;
       AHBCLKDivider := RCC_SYSCLK_DIV1;
       APB1CLKDivider := RCC_HCLK_DIV2;
       APB2CLKDivider := RCC_HCLK_DIV1 |} in
  ITree.trigger (HAL_RCC_ClockConfig RCC_ClkInitStruct FLASH_LATENCY_2) ;;
  Ret tt.

(** [static void MX_GPIO_Init(void)] *)
Definition MX_GPIO_Init : itree halE unit :=
  ITree.trigger __HAL_RCC_GPIOA_CLK_ENABLE ;;
  let GPIO_InitStruct :=
    {| Pin := GPIO_PIN_6;
       Mode := GPIO_MODE_AF_PP;
       Pull := GPIO_NOPULL;
       Speed := GPIO_SPEED_FREQ_LOW;
       Alternate := GPIO_AF2_TIM3 |} in
  ITree.trigger (HAL_GPIO_Init GPIOA GPIO_InitStruct) ;;
  Ret tt.

(** [static void MX_TIM3_Init(void)]: writes the global handle, which is
    taken as argument and returned; both statuses are dropped. *)
Definition MX_TIM3_Init (htim3 : TIM_HandleTypeDef)
  : itree halE TIM_HandleTypeDef :=
  ITree.trigger __HAL_RCC_TIM3_CLK_ENABLE ;;
  let htim3 := set_Instance TIM3 htim3 in
  let htim3 := set_Prescaler (84 - 1) htim3 in
  let htim3 := set_CounterMode TIM_COUNTERMODE_UP htim3 in
  let htim3 := set_Period (20000 - 1) htim3 in
  let htim3 := set_ClockDivision TIM_CLOCKDIVISION_DIV1 htim3 in
  ITree.trigger (HAL_TIM_PWM_Init htim3) ;;
  let sConfigOC :=
    {| OCMode := TIM_OCMODE_PWM1;
       Pulse := 75;
       OCPolarity := TIM_OCPOLARITY_HIGH;
       OCFastMode := TIM_OCFAST_DISABLE |} in
  ITree.trigger (HAL_TIM_PWM_ConfigChannel htim3 sConfigOC TIM_CHANNEL_1) ;;
  Ret htim3.

(** One pass through the body of [while (1)]. *)
Definition loop_body (htim3 : TIM_HandleTypeDef) : itree halE unit :=
  ITree.trigger (__HAL_TIM_SET_COMPARE htim3 TIM_CHANNEL_1 50) ;;
  ITree.trigger (HAL_Delay 1000) ;;
  ITree.trigger (__HAL_TIM_SET_COMPARE htim3 TIM_CHANNEL_1 75) ;;
  ITree.trigger (HAL_Delay 1000) ;;
  ITree.trigger (__HAL_TIM_SET_COMPARE htim3 TIM_CHANNEL_1 100) ;;
  ITree.trigger (HAL_Delay 1000).

(** [while (1) { ... }] *)
Definition control_loop (htim3 : TIM_HandleTypeDef) : itree halE Z :=
  ITree.forever (loop_body htim3).

(** [int main(void)] *)
Definition main : itree halE Z :=
  ITree.trigger HAL_Init ;;
  SystemClock_Config ;;
  MX_GPIO_Init ;;
  htim3 <- MX_TIM3_Init htim3_reset ;;
  ITree.trigger (HAL_TIM_PWM_Start htim3 TIM_CHANNEL_1) ;;
  control_loop htim3.

(* ===================================================================== *)
(** ** Running the program against an environment *)
(* ===================================================================== *)

(** The environment answers the [i]-th call of a run; for the calls that
    return a status this is the status the hardware reports. *)
Definition responder : Type := nat -> forall T, halE T -> T.

(** The answer-everything-went-well environment. *)
Definition all_ok : responder :=
  fun _ T e =>
    match e in halE T return T with
    | HAL_Init => HAL_OK
    | __HAL_RCC_PWR_CLK_ENABLE => tt
    | __HAL_PWR_VOLTAGESCALING_CONFIG _ => tt
    | HAL_RCC_OscConfig _ => HAL_OK
    | HAL_RCC_ClockConfig _ _ => HAL_OK
    | __HAL_RCC_GPIOA_CLK_ENABLE => tt
    | HAL_GPIO_Init _ _ => tt
    | __HAL_RCC_TIM3_CLK_ENABLE => tt
    | HAL_TIM_PWM_Init _ => HAL_OK
    | HAL_TIM_PWM_ConfigChannel _ _ _ => HAL_OK
    | HAL_TIM_PWM_Start _ _ => HAL_OK
    | __HAL_TIM_SET_COMPARE _ _ _ => tt
    | HAL_Delay _ => tt
    end.

(** An environment in which every status-returning call fails with [s]. *)
Definition all_status (s : HAL_StatusTypeDef) : responder :=
  fun _ T e =>
    match e in halE T return T with
    | HAL_Init => s
    | __HAL_RCC_PWR_CLK_ENABLE => tt
    | __HAL_PWR_VOLTAGESCALING_CONFIG _ => tt
    | HAL_RCC_OscConfig _ => s
    | HAL_RCC_ClockConfig _ _ => s
    | __HAL_RCC_GPIOA_CLK_ENABLE => tt
    | HAL_GPIO_Init _ _ => tt
    | __HAL_RCC_TIM3_CLK_ENABLE => tt
    | HAL_TIM_PWM_Init _ => s
    | HAL_TIM_PWM_ConfigChannel _ _ _ => s
    | HAL_TIM_PWM_Start _ _ => s
    | __HAL_TIM_SET_COMPARE _ _ _ => tt
    | HAL_Delay _ => tt
    end.

(** [trace fuel env i t]: the calls made by the first [fuel] nodes of
    [t], the next call being the [i]-th of the run.  A silent step (the
    back edge of a loop) uses one unit of fuel and makes no call. *)
Fixpoint trace {R} (fuel : nat) (env : responder) (i : nat) (t : itree halE R)
  : list hal_call :=
  match fuel with
  | O => []
  | S fuel' =>
      match observe t with
      | RetF _ => []
      | TauF t' => trace fuel' env i t'
      | VisF e k => call e :: trace fuel' env (S i) (k (env i _ e))
      end
  end.

(** [exit_code fuel env i t]: the value returned by [t] when it returns
    within [fuel] nodes. *)
Fixpoint exit_code {R} (fuel : nat) (env : responder) (i : nat)
  (t : itree halE R) : option R :=
  match fuel with
  | O => None
  | S fuel' =>
      match observe t with
      | RetF r => Some r
      | TauF t' => exit_code fuel' env i t'
      | VisF e k => exit_code fuel' env (S i) (k (env i _ e))
      end
  end.

(* ===================================================================== *)
(** ** Observations on traces *)
(* ===================================================================== *)

(** The value of a compare-register write. *)
Definition compare_of (c : hal_call) : option Z :=
  match projT2 c with
  | __HAL_TIM_SET_COMPARE _ _ v => Some v
  | _ => None
  end.

(** The values written to the compare register, in order. *)
Definition compare_writes (l : list hal_call) : list Z :=
  flat_map (fun c => match compare_of c with Some v => [v] | None => [] end) l.

Definition is_write (v : Z) (c : hal_call) : bool :=
  match projT2 c with
  | __HAL_TIM_SET_COMPARE _ TIM_CHANNEL_1 w => w =? v
  | _ => false
  end.

Definition is_delay (ms : Z) (c : hal_call) : bool :=
  match projT2 c with
  | HAL_Delay d => d =? ms
  | _ => false
  end.

Definition is_pwm_start (c : hal_call) : bool :=
  match projT2 c with
  | HAL_TIM_PWM_Start _ _ => true
  | _ => false
  end.

(** A call of the control loop: a compare write or a delay. *)
Definition is_loop_call (c : hal_call) : bool :=
  match projT2 c with
  | __HAL_TIM_SET_COMPARE _ _ _ => true
  | HAL_Delay _ => true
  | _ => false
  end.

(** The calls made after the (first) start of the PWM output. *)
Fixpoint after_pwm_start (l : list hal_call) : list hal_call :=
  match l with
  | [] => []
  | c :: l' => if is_pwm_start c then l' else after_pwm_start l'
  end.

(** The calls made up to and including the (first) start of the PWM
    output; the whole list when the output is not started in it. *)
Fixpoint before_pwm_start (l : list hal_call) : list hal_call :=
  match l with
  | [] => []
  | c :: l' => if is_pwm_start c then [c] else c :: before_pwm_start l'
  end.

(** The calls that are not made by the control loop. *)
Definition setup_calls (l : list hal_call) : list hal_call :=
  filter (fun c => negb (is_loop_call c)) l.

(** The handle given to [HAL_TIM_PWM_Init]. *)
Fixpoint pwm_init_handle (l : list hal_call) : option TIM_HandleTypeDef :=
  match l with
  | [] => None
  | c :: l' =>
      match projT2 c with
      | HAL_TIM_PWM_Init h => Some h
      | _ => pwm_init_handle l'
      end
  end.

(** The oscillator settings given to [HAL_RCC_OscConfig]. *)
Fixpoint osc_config (l : list hal_call) : option RCC_OscInitTypeDef :=
  match l with
  | [] => None
  | c :: l' =>
      match projT2 c with
      | HAL_RCC_OscConfig o => Some o
      | _ => osc_config l'
      end
  end.

(** The bus settings given to [HAL_RCC_ClockConfig]. *)
Fixpoint clock_config (l : list hal_call) : option RCC_ClkInitTypeDef :=
  match l with
  | [] => None
  | c :: l' =>
      match projT2 c with
      | HAL_RCC_ClockConfig k _ => Some k
      | _ => clock_config l'
      end
  end.

(** The handle with which [main] enters its loop: the value that
    [MX_TIM3_Init] leaves in the global. *)
Definition htim3_configured : TIM_HandleTypeDef :=
  match exit_code 4 all_ok 0 (MX_TIM3_Init htim3_reset) with
  | Some h => h
  | None => htim3_reset
  end.

(** The calls of one pass through the loop body. *)
Definition round_calls (h : TIM_HandleTypeDef) : list hal_call :=
  trace 6 all_ok 0 (loop_body h).

(** The calls of [main] before it enters the loop. *)
Definition startup_calls : list hal_call := trace 11 all_ok 0 main.

(** The three positions of the loop, as its comments name them
    (minima, centrale, massima), with the value written for each. *)
Inductive position : Type := MIN | CENTER | MAX.

Definition compare_value (p : position) : Z :=
  match p with MIN => 50 | CENTER => 75 | MAX => 100 end.

Definition next_position (p : position) : position :=
  match p with MIN => CENTER | CENTER => MAX | MAX => MIN end.

(** The pulse width, in seconds, that the comment beside each write
    documents: 1 ms, 1.5 ms, 2 ms. *)
Definition documented_pulse_width (p : position) : Q :=
  match p with MIN => 1 # 1000 | CENTER => 15 # 10000 | MAX => 2 # 1000 end.

(** [paced p l]: [l] starts with the write for position [p]; each write
    is followed, as far as [l] goes, by one [HAL_Delay(1000)] and then by
    the write for the next position. *)
Fixpoint paced (p : position) (l : list hal_call) {struct l} : bool :=
  match l with
  | [] => true
  | w :: l1 =>
      is_write (compare_value p) w &&
      match l1 with
      | [] => true
      | d :: l2 => is_delay 1000 d && paced (next_position p) l2
      end
  end.

(* ===================================================================== *)
(** ** Hardware timing *)
(* ===================================================================== *)

(** Modelled from the spec: the timer is hardware and the bodies of the
    HAL functions are not under src.  Section 4.3 and the glossary: the
    prescaler divides the timer's input clock down to the counter tick
    rate; the register value [Prescaler] divides by [Prescaler + 1]. *)
Definition counter_tick_rate (timclk : Z) (cfg : TIM_Base_InitTypeDef) : Q :=
  inject_Z timclk / inject_Z (Prescaler cfg + 1).

(** Modelled from the spec: section 8, the frame lasts
    (timer period + 1) / counter tick rate seconds. *)
Definition frame_period (timclk : Z) (cfg : TIM_Base_InitTypeDef) : Q :=
  inject_Z (Period cfg + 1) / counter_tick_rate timclk cfg.

(** Modelled from the spec: section 4.3, the frame frequency is
    counter_tick_rate / (period + 1). *)
Definition pwm_frequency (timclk : Z) (cfg : TIM_Base_InitTypeDef) : Q :=
  counter_tick_rate timclk cfg / inject_Z (Period cfg + 1).

(** Modelled from the spec: sections 4.3 and 8, the output is high from
    counter reset until the counter reaches the compare value, so the
    pulse lasts compare / counter tick rate seconds. *)
Definition pulse_width (timclk : Z) (cfg : TIM_Base_InitTypeDef) (compare : Z)
  : Q :=
  inject_Z compare / counter_tick_rate timclk cfg.

(** Modelled from the spec: glossary, the duty cycle is the high-time
    fraction of one frame. *)
Definition duty_cycle (timclk : Z) (cfg : TIM_Base_InitTypeDef) (compare : Z)
  : Q :=
  pulse_width timclk cfg compare / frame_period timclk cfg.

(** Divisors that the enumerators of the header stand for. *)
Definition pllp_div (p : RCC_PLLP_t) : Z :=
  match p with
  | RCC_PLLP_DIV2 => 2 | RCC_PLLP_DIV4 => 4
  | RCC_PLLP_DIV6 => 6 | RCC_PLLP_DIV8 => 8
  end.

Definition ahb_div (d : AHBDivider) : Z :=
  match d with
  | RCC_SYSCLK_DIV1 => 1 | RCC_SYSCLK_DIV2 => 2 | RCC_SYSCLK_DIV4 => 4
  | RCC_SYSCLK_DIV8 => 8 | RCC_SYSCLK_DIV16 => 16 | RCC_SYSCLK_DIV64 => 64
  | RCC_SYSCLK_DIV128 => 128 | RCC_SYSCLK_DIV256 => 256
  | RCC_SYSCLK_DIV512 => 512
  end.

Definition apb_div (d : APBDivider) : Z :=
  match d with
  | RCC_HCLK_DIV1 => 1 | RCC_HCLK_DIV2 => 2 | RCC_HCLK_DIV4 => 4
  | RCC_HCLK_DIV8 => 8 | RCC_HCLK_DIV16 => 16
  end.

Definition wait_states (l : FlashLatency) : Z :=
  match l with
  | FLASH_LATENCY_0 => 0 | FLASH_LATENCY_1 => 1 | FLASH_LATENCY_2 => 2
  | FLASH_LATENCY_3 => 3 | FLASH_LATENCY_4 => 4 | FLASH_LATENCY_5 => 5
  | FLASH_LATENCY_6 => 6 | FLASH_LATENCY_7 => 7
  end.

(** Modelled from the spec: the oscillator and the PLL are hardware.
    Section 4.1: the PLL multiply/divide factors derive the system clock
    from the internal oscillator; the input is divided by M, multiplied
    by N and divided by P.  [hsi] is the frequency of the internal
    oscillator in Hz. *)
Definition pll_clock (hsi : Z) (pll : RCC_PLLInitTypeDef) : Z :=
  hsi / PLLM pll * PLLN pll / pllp_div (PLLP pll).

(** Modelled from the spec: section 4.1, the bus dividers.  The core bus
    clock is the system clock over the AHB divider, the first peripheral
    bus clock the core bus clock over the APB1 divider. *)
Definition hclk (sysclk : Z) (clk : RCC_ClkInitTypeDef) : Z :=
  sysclk / ahb_div (AHBCLKDivider clk).

Definition pclk1 (sysclk : Z) (clk : RCC_ClkInitTypeDef) : Z :=
  hclk sysclk clk / apb_div (APB1CLKDivider clk).

(** Modelled from the spec: the clock of TIM3, a timer of the first
    peripheral bus, is that bus clock, doubled when the bus is divided
    (this is what makes the source's prescaler of 84 give 1 MHz). *)
Definition tim3_clock (sysclk : Z) (clk : RCC_ClkInitTypeDef) : Z :=
  match APB1CLKDivider clk with
  | RCC_HCLK_DIV1 => pclk1 sysclk clk
  | _ => 2 * pclk1 sysclk clk
  end.

(** The registers of TIM3 that the program reaches: prescaler, auto
    reload, compare of channel 1, and the output enable of channel 1. *)
Record TIM_Registers : Type := {
  PSC : Z;
  ARR : Z;
  CCR1 : Z;
  CC1E : bool
}.

Definition TIM_reset : TIM_Registers :=
  {| PSC := 0; ARR := 0; CCR1 := 0; CC1E := false |}.

(** Modelled from the spec: the HAL functions are not under src.
    Section 4.3: the timer configuration sets prescaler and reload period,
    the channel configuration sets the starting compare value, starting
    the PWM enables the channel output, and set pulse width writes the
    compare register of the named channel. *)
Definition hw_step (r : TIM_Registers) (c : hal_call) : TIM_Registers :=
  match projT2 c with
  | HAL_TIM_PWM_Init h =>
      {| PSC := Prescaler (Init h); ARR := Period (Init h);
         CCR1 := CCR1 r; CC1E := CC1E r |}
  | HAL_TIM_PWM_ConfigChannel _ oc TIM_CHANNEL_1 =>
      {| PSC := PSC r; ARR := ARR r; CCR1 := Pulse oc; CC1E := CC1E r |}
  | HAL_TIM_PWM_Start _ TIM_CHANNEL_1 =>
      {| PSC := PSC r; ARR := ARR r; CCR1 := CCR1 r; CC1E := true |}
  | __HAL_TIM_SET_COMPARE _ TIM_CHANNEL_1 v =>
      {| PSC := PSC r; ARR := ARR r; CCR1 := v; CC1E := CC1E r |}
  | _ => r
  end.

Definition hw_run (r : TIM_Registers) (l : list hal_call) : TIM_Registers :=
  fold_left hw_step l r.

(* ===================================================================== *)
(** ** Further observations: call order, handles, requested delays *)
(* ===================================================================== *)

Definition is_pwr_clk_enable (c : hal_call) : bool :=
  match projT2 c with __HAL_RCC_PWR_CLK_ENABLE => true | _ => false end.

Definition is_voltage_scaling (c : hal_call) : bool :=
  match projT2 c with __HAL_PWR_VOLTAGESCALING_CONFIG _ => true | _ => false end.

Definition is_gpioa_clk_enable (c : hal_call) : bool :=
  match projT2 c with __HAL_RCC_GPIOA_CLK_ENABLE => true | _ => false end.

Definition is_gpio_init (c : hal_call) : bool :=
  match projT2 c with HAL_GPIO_Init _ _ => true | _ => false end.

Definition is_tim3_clk_enable (c : hal_call) : bool :=
  match projT2 c with __HAL_RCC_TIM3_CLK_ENABLE => true | _ => false end.

Definition is_osc_config (c : hal_call) : bool :=
  match projT2 c with HAL_RCC_OscConfig _ => true | _ => false end.

Definition is_clock_switch (c : hal_call) : bool :=
  match projT2 c with HAL_RCC_ClockConfig _ _ => true | _ => false end.

Definition is_pwm_init (c : hal_call) : bool :=
  match projT2 c with HAL_TIM_PWM_Init _ => true | _ => false end.

Definition is_config_channel (c : hal_call) : bool :=
  match projT2 c with HAL_TIM_PWM_ConfigChannel _ _ _ => true | _ => false end.

(** A call that works on a timer through a handle. *)
Definition is_timer_call (c : hal_call) : bool :=
  match projT2 c with
  | HAL_TIM_PWM_Init _ => true
  | HAL_TIM_PWM_ConfigChannel _ _ _ => true
  | HAL_TIM_PWM_Start _ _ => true
  | __HAL_TIM_SET_COMPARE _ _ _ => true
  | _ => false
  end.

(** A call that configures a peripheral clocked from the system clock. *)
Definition is_peripheral_call (c : hal_call) : bool :=
  is_gpio_init c || is_timer_call c.

(** [never_before p q l]: in [l], no call satisfying [q] is made until a
    call satisfying [p] has been made. *)
Fixpoint never_before (p q : hal_call -> bool) (l : list hal_call) : bool :=
  match l with
  | [] => true
  | c :: l' => if p c then true else negb (q c) && never_before p q l'
  end.

(** The handle and, where the call names one, the channel that a timer
    call is given. *)
Definition timer_target (c : hal_call)
  : option (TIM_HandleTypeDef * option TIM_Channel) :=
  match projT2 c with
  | HAL_TIM_PWM_Init h => Some (h, None)
  | HAL_TIM_PWM_ConfigChannel h _ ch => Some (h, Some ch)
  | HAL_TIM_PWM_Start h ch => Some (h, Some ch)
  | __HAL_TIM_SET_COMPARE h ch _ => Some (h, Some ch)
  | _ => None
  end.

(** [on_timer t ch h c]: if [c] is a timer call, it is given handle [h],
    whose instance is timer [t], and no channel other than [ch]. *)
Definition on_timer (t : TIM_TypeDef) (ch : TIM_Channel)
  (h : TIM_HandleTypeDef) (c : hal_call) : Prop :=
  match timer_target c with
  | Some (h', ch') =>
      h' = h /\ Instance h' = Some t /\ (ch' = None \/ ch' = Some ch)
  | None => True
  end.

(** The timer whose signal an alternate-function selector routes to the
    pin: the one that the enumerator names. *)
Definition af_timer (a : GPIO_Alternate) : option TIM_TypeDef :=
  match a with
  | GPIO_AF0 => None
  | GPIO_AF1_TIM1 => Some TIM1
  | GPIO_AF1_TIM2 => Some TIM2
  | GPIO_AF2_TIM3 => Some TIM3
  | GPIO_AF2_TIM4 => Some TIM4
  | GPIO_AF2_TIM5 => Some TIM5
  end.

(** The pin initialisations of a run, in order. *)
Fixpoint gpio_inits (l : list hal_call) : list (GPIO_Port * GPIO_InitTypeDef) :=
  match l with
  | [] => []
  | c :: l' =>
      match projT2 c with
      | HAL_GPIO_Init port cfg => (port, cfg) :: gpio_inits l'
      | _ => gpio_inits l'
      end
  end.

(** The compare writes of a run, each with the delay requested before it:
    the sum, from [now] on, of the arguments of the [HAL_Delay] calls that
    precede the write, in milliseconds. *)
Fixpoint timeline (now : Z) (l : list hal_call) : list (Z * Z) :=
  match l with
  | [] => []
  | c :: l' =>
      match projT2 c with
      | __HAL_TIM_SET_COMPARE _ _ v => (now, v) :: timeline now l'
      | HAL_Delay ms => timeline (now + ms) l'
      | _ => timeline now l'
      end
  end.

(** The position written by the [j]-th write of the loop. *)
Definition nth_position (j : nat) : position :=
  match (j mod 3)%nat with
  | O => MIN
  | S O => CENTER
  | _ => MAX
  end.

(** The first [n] entries of the sweep: write [j] comes after [1000 * j]
    ms of requested delay and carries the value of position [j mod 3]. *)
Definition schedule (n : nat) : list (Z * Z) :=
  map (fun j => (1000 * Z.of_nat j, compare_value (nth_position j))) (seq 0 n).

(* ===================================================================== *)
(** ** Sanity checks of the model on concrete runs *)
(* ===================================================================== *)

Example htim3_configured_value :
  htim3_configured =
  {| Instance := Some TIM3;
     Init := {| Prescaler := 83; CounterMode := TIM_COUNTERMODE_UP;
                Period := 19999; ClockDivision := TIM_CLOCKDIVISION_DIV1 |} |}.
Proof. reflexivity. Qed.

Example round_calls_value h :
  round_calls h =
  [ call (__HAL_TIM_SET_COMPARE h TIM_CHANNEL_1 50); call (HAL_Delay 1000);
    call (__HAL_TIM_SET_COMPARE h TIM_CHANNEL_1 75); call (HAL_Delay 1000);
    call (__HAL_TIM_SET_COMPARE h TIM_CHANNEL_1 100); call (HAL_Delay 1000) ].
Proof. reflexivity. Qed.

Example startup_calls_length : length startup_calls = 11%nat.
Proof. reflexivity. Qed.

Example compare_writes_two_rounds :
  compare_writes (trace 25 all_ok 0 main) = [50; 75; 100; 50; 75; 100].
Proof. reflexivity. Qed.

Example compare_writes_mid_round :
  compare_writes (trace 20 (all_status HAL_ERROR) 0 main) = [50; 75; 100; 50].
Proof. reflexivity. Qed.

(* ===================================================================== *)
(** ** Unfolding the program *)
(* ===================================================================== *)

(** Induction that follows the loop: seven nodes (six calls and the back
    edge) per round. *)
Lemma round_ind (P : nat -> Prop) :
  P 0%nat -> P 1%nat -> P 2%nat -> P 3%nat -> P 4%nat -> P 5%nat -> P 6%nat ->
  (forall n, P n -> P (7 + n)%nat) ->
  forall n, P n.
Proof.
  intros H0 H1 H2 H3 H4 H5 H6 Hstep n.
  induction n as [n IH] using lt_wf_ind.
  do 7 (destruct n as [|n]; [assumption|]).
  apply (Hstep n). apply IH. lia.
Qed.

(** A run only looks at a tree through [observe]. *)
Lemma trace_observe {R} (n : nat) (env : responder) (i : nat)
  (t u : itree halE R) :
  observe t = observe u -> trace n env i t = trace n env i u.
Proof. intros E. destruct n as [|n]; simpl; [|rewrite E]; reflexivity. Qed.

Lemma exit_code_observe {R} (n : nat) (env : responder) (i : nat)
  (t u : itree halE R) :
  observe t = observe u -> exit_code n env i t = exit_code n env i u.
Proof. intros E. destruct n as [|n]; simpl; [|rewrite E]; reflexivity. Qed.

(** After the eleven calls of the startup, [main] is its loop. *)
Lemma trace_main_startup (env : responder) (n : nat) :
  trace (11 + n) env 0 main
  = startup_calls ++ trace n env 11 (control_loop htim3_configured).
Proof.
  unfold startup_calls. cbn.
  do 11 (apply f_equal). apply trace_observe. reflexivity.
Qed.

Lemma exit_code_main_startup (env : responder) (n : nat) :
  exit_code (11 + n) env 0 main
  = exit_code n env 11 (control_loop htim3_configured).
Proof. cbn. apply exit_code_observe. reflexivity. Qed.

(** One round of the loop: six calls, then the loop again. *)
Lemma trace_loop_round (env : responder) (n i : nat) (h : TIM_HandleTypeDef) :
  trace (7 + n) env i (control_loop h)
  = round_calls h ++ trace n env (6 + i) (control_loop h).
Proof. unfold round_calls. cbn. reflexivity. Qed.

Lemma exit_code_loop_round (env : responder) (n i : nat)
  (h : TIM_HandleTypeDef) :
  exit_code (7 + n) env i (control_loop h)
  = exit_code n env (6 + i) (control_loop h).
Proof. reflexivity. Qed.

(** More fuel only extends a run. *)
Lemma trace_more {R} (n m : nat) (env : responder) :
  forall (i : nat) (t : itree halE R),
    exists rest, trace (n + m) env i t = trace n env i t ++ rest.
Proof.
  induction n as [|n IH]; intros i t; simpl.
  - eexists; reflexivity.
  - destruct (observe t) as [r | t' | X e k].
    + exists []; reflexivity.
    + apply IH.
    + destruct (IH (S i) (k (env i X e))) as [rest E].
      exists rest. rewrite E. reflexivity.
Qed.

(** The loop makes the same calls whatever the environment answers. *)
Lemma trace_loop_env (fuel : nat) :
  forall (env : responder) (i : nat) (h : TIM_HandleTypeDef),
    trace fuel env i (control_loop h) = trace fuel all_ok 0 (control_loop h).
Proof.
  induction fuel as [| | | | | | | n IH] using round_ind; intros env i h;
    try reflexivity.
  rewrite !trace_loop_round. f_equal.
  etransitivity; [apply IH | symmetry; apply IH].
Qed.

Lemma trace_main_env (fuel : nat) (env : responder) :
  trace fuel env 0 main = trace fuel all_ok 0 main.
Proof.
  do 11 (destruct fuel as [|fuel]; [reflexivity|]).
  change (trace (11 + fuel) env 0 main = trace (11 + fuel) all_ok 0 main).
  rewrite !trace_main_startup. f_equal.
  etransitivity; [apply trace_loop_env | symmetry; apply trace_loop_env].
Qed.

(** [k] rounds of the loop. *)
Lemma trace_loop_rounds (k : nat) :
  forall (env : responder) (i : nat) (h : TIM_HandleTypeDef),
    trace (7 * k) env i (control_loop h) = concat (repeat (round_calls h) k).
Proof.
  induction k as [|k IH]; intros env i h.
  - reflexivity.
  - replace (7 * S k)%nat with (7 + 7 * k)%nat by lia.
    rewrite trace_loop_round, IH. reflexivity.
Qed.

Lemma trace_main_rounds (k : nat) (env : responder) :
  trace (11 + 7 * k) env 0 main
  = startup_calls ++ concat (repeat (round_calls htim3_configured) k).
Proof. rewrite trace_main_startup, trace_loop_rounds. reflexivity. Qed.

(** Every run of [main] is the beginning of a run of whole rounds. *)
Lemma trace_main_prefix (fuel : nat) (env : responder) :
  exists rest,
    startup_calls ++ concat (repeat (round_calls htim3_configured) fuel)
    = trace fuel env 0 main ++ rest.
Proof.
  destruct (trace_more fuel (11 + 6 * fuel) env 0 main) as [rest E].
  exists rest. rewrite <- E, <- (trace_main_rounds fuel env).
  f_equal. lia.
Qed.

(** The loop never returns. *)
Lemma exit_code_loop (fuel : nat) :
  forall (env : responder) (i : nat) (h : TIM_HandleTypeDef),
    exit_code fuel env i (control_loop h) = None.
Proof.
  induction fuel as [| | | | | | | n IH] using round_ind; intros env i h;
    try reflexivity.
  rewrite exit_code_loop_round. apply IH.
Qed.

Lemma exit_code_main (fuel : nat) (env : responder) :
  exit_code fuel env 0 main = None.
Proof.
  do 11 (destruct fuel as [|fuel]; [reflexivity|]).
  change (exit_code (11 + fuel) env 0 main = None).
  rewrite exit_code_main_startup. apply exit_code_loop.
Qed.

Lemma compare_writes_app (l m : list hal_call) :
  compare_writes (l ++ m) = compare_writes l ++ compare_writes m.
Proof. apply flat_map_app. Qed.

Lemma compare_writes_rounds (k : nat) (h : TIM_HandleTypeDef) :
  compare_writes (concat (repeat (round_calls h) k))
  = concat (repeat [50; 75; 100] k).
Proof.
  induction k as [|k IH]; [reflexivity|].
  change (concat (repeat (round_calls h) (S k)))
    with (round_calls h ++ concat (repeat (round_calls h) k)).
  rewrite compare_writes_app, IH. reflexivity.
Qed.

Lemma compare_writes_main_rounds (k : nat) (env : responder) :
  compare_writes (trace (11 + 7 * k) env 0 main)
  = concat (repeat [50; 75; 100] k).
Proof.
  rewrite trace_main_rounds, compare_writes_app, compare_writes_rounds.
  reflexivity.
Qed.

Lemma compare_writes_main_prefix (fuel : nat) (env : responder) :
  exists rest,
    concat (repeat [50; 75; 100] fuel)
    = compare_writes (trace fuel env 0 main) ++ rest.
Proof.
  destruct (trace_main_prefix fuel env) as [rest E].
  exists (compare_writes rest).
  rewrite <- compare_writes_app, <- E, compare_writes_app,
    compare_writes_rounds.
  reflexivity.
Qed.

Lemma after_pwm_start_startup (l : list hal_call) :
  after_pwm_start (startup_calls ++ l) = l.
Proof. reflexivity. Qed.

Lemma before_pwm_start_startup (l : list hal_call) :
  before_pwm_start (startup_calls ++ l) = startup_calls.
Proof. reflexivity. Qed.

(** The loop makes no call other than compare writes and delays. *)
Lemma loop_calls_only (fuel : nat) :
  forall (env : responder) (i : nat) (h : TIM_HandleTypeDef),
    forallb is_loop_call (trace fuel env i (control_loop h)) = true.
Proof.
  induction fuel as [| | | | | | | n IH] using round_ind; intros env i h;
    try reflexivity.
  rewrite trace_loop_round, forallb_app, IH. reflexivity.
Qed.

Lemma setup_calls_none (l : list hal_call) :
  forallb is_loop_call l = true -> setup_calls l = [].
Proof.
  induction l as [|c l IH]; simpl; [reflexivity|].
  intros H. apply andb_prop in H. destruct H as [Hc Hl].
  rewrite Hc. simpl. apply IH, Hl.
Qed.

Lemma paced_round (h : TIM_HandleTypeDef) (l : list hal_call) :
  paced MIN (round_calls h ++ l) = paced MIN l.
Proof. reflexivity. Qed.

Lemma paced_loop (fuel : nat) :
  forall (env : responder) (i : nat) (h : TIM_HandleTypeDef),
    paced MIN (trace fuel env i (control_loop h)) = true.
Proof.
  induction fuel as [| | | | | | | n IH] using round_ind; intros env i h;
    try reflexivity.
  rewrite trace_loop_round, paced_round. apply IH.
Qed.

Lemma Forall_rounds {A} (P : A -> Prop) (l : list A) (k : nat) :
  Forall P l -> Forall P (concat (repeat l k)).
Proof.
  intros H. induction k as [|k IH]; simpl.
  - constructor.
  - apply Forall_app. split; assumption.
Qed.

(* ===================================================================== *)
(** ** Properties of the control loop *)
(* ===================================================================== *)

(** C3: the values written to the compare register are exactly the
    cyclic sequence 50, 75, 100, 50, 75, 100, ...: after the startup and
    [k] rounds of the loop the writes are [k] copies of [50; 75; 100]
    (the values of MIN, CENTER, MAX in this order); the writes of any run
    are a beginning of such a sequence, so no other value is ever written;
    and [main] never returns, whatever the hardware answers. *)
Theorem compare_sequence_cyclic (env : responder) :
  (forall k : nat,
      compare_writes (trace (11 + 7 * k) env 0 main)
      = concat (repeat (map compare_value [MIN; CENTER; MAX]) k))
  /\ (forall fuel : nat, exists (k : nat) (rest : list Z),
         concat (repeat [50; 75; 100] k)
         = compare_writes (trace fuel env 0 main) ++ rest)
  /\ (forall fuel : nat, exit_code fuel env 0 main = None).
Proof.
  split; [|split].
  - intros k. apply compare_writes_main_rounds.
  - intros fuel. exists fuel. apply compare_writes_main_prefix.
  - intros fuel. apply exit_code_main.
Qed.

(** C4: after the PWM is started the program does nothing but rounds of
    write 50, HAL_Delay(1000), write 75, HAL_Delay(1000), write 100,
    HAL_Delay(1000); in every run each compare write is followed by
    exactly one delay of 1000 ms and then by the write of the next
    position, so no position is skipped or written twice in a row. *)
Theorem loop_delays (env : responder) :
  (forall k : nat,
      after_pwm_start (trace (11 + 7 * k) env 0 main)
      = concat (repeat
          [ call (__HAL_TIM_SET_COMPARE htim3_configured TIM_CHANNEL_1 50);
            call (HAL_Delay 1000);
            call (__HAL_TIM_SET_COMPARE htim3_configured TIM_CHANNEL_1 75);
            call (HAL_Delay 1000);
            call (__HAL_TIM_SET_COMPARE htim3_configured TIM_CHANNEL_1 100);
            call (HAL_Delay 1000) ] k))
  /\ (forall fuel : nat,
         paced MIN (after_pwm_start (trace fuel env 0 main)) = true).
Proof.
  split.
  - intros k. rewrite trace_main_rounds, after_pwm_start_startup.
    reflexivity.
  - intros fuel.
    do 11 (destruct fuel as [|fuel]; [reflexivity|]).
    change (paced MIN (after_pwm_start (trace (11 + fuel) env 0 main)) = true).
    rewrite trace_main_startup, after_pwm_start_startup.
    apply paced_loop.
Qed.

(* ===================================================================== *)
(** ** Properties of the startup *)
(* ===================================================================== *)

(** C5: a run of [main] is, in this order, the HAL initialisation, the
    calls of [SystemClock_Config], those of [MX_GPIO_Init], those of
    [MX_TIM3_Init], the start of the PWM output, and then the control
    loop, which never returns; each of the three routines runs to its
    end; the calls of the whole run that are not loop calls are these
    eleven startup calls and nothing more, so each step happens once; and
    in no run is the compare register written before the PWM is started. *)
Theorem startup_sequence (env : responder) :
  (forall n : nat,
      trace (11 + n) env 0 main
      = [call HAL_Init]
        ++ trace 5 env 1 SystemClock_Config
        ++ trace 3 env 5 MX_GPIO_Init
        ++ trace 4 env 7 (MX_TIM3_Init htim3_reset)
        ++ [call (HAL_TIM_PWM_Start htim3_configured TIM_CHANNEL_1)]
        ++ trace n env 11 (control_loop htim3_configured))
  /\ exit_code 5 env 1 SystemClock_Config = Some tt
  /\ exit_code 3 env 5 MX_GPIO_Init = Some tt
  /\ exit_code 4 env 7 (MX_TIM3_Init htim3_reset) = Some htim3_configured
  /\ (forall n : nat,
         setup_calls (trace (11 + n) env 0 main) = trace 11 env 0 main)
  /\ length (trace 11 env 0 main) = 11%nat
  /\ (forall n : nat, exit_code n env 11 (control_loop htim3_configured) = None)
  /\ (forall fuel : nat,
         compare_writes (before_pwm_start (trace fuel env 0 main)) = []).
Proof.
  split; [|split; [|split; [|split; [|split; [|split; [|split]]]]]].
  - intros n. rewrite trace_main_startup. reflexivity.
  - reflexivity.
  - reflexivity.
  - reflexivity.
  - intros n. rewrite trace_main_startup. unfold setup_calls.
    rewrite filter_app.
    fold (setup_calls (trace n env 11 (control_loop htim3_configured))).
    rewrite (setup_calls_none _ (loop_calls_only n env 11 htim3_configured)).
    reflexivity.
  - reflexivity.
  - intros n. apply exit_code_loop.
  - intros fuel.
    do 11 (destruct fuel as [|fuel]; [reflexivity|]).
    change (compare_writes (before_pwm_start (trace (11 + fuel) env 0 main))
            = []).
    rewrite trace_main_startup, before_pwm_start_startup. reflexivity.
Qed.

(** C6: [SystemClock_Config] enables the power interface clock and
    voltage scaling (scale 1), configures the oscillators with the
    internal oscillator HSI switched on and the PLL on with HSI as its
    source, then selects the PLL output as system clock with the AHB bus
    undivided, APB1 divided by 2 and APB2 undivided, all four clock types
    being selected, with flash latency 2; then it returns. *)
Theorem clock_configuration (env : responder) (i : nat) :
  exists (osc : RCC_OscInitTypeDef) (clk : RCC_ClkInitTypeDef)
         (lat : FlashLatency),
    trace 5 env i SystemClock_Config
    = [ call __HAL_RCC_PWR_CLK_ENABLE;
        call (__HAL_PWR_VOLTAGESCALING_CONFIG PWR_REGULATOR_VOLTAGE_SCALE1);
        call (HAL_RCC_OscConfig osc);
        call (HAL_RCC_ClockConfig clk lat) ]
    /\ exit_code 5 env i SystemClock_Config = Some tt
    /\ OscillatorType osc = RCC_OSCILLATORTYPE_HSI
    /\ HSIState osc = RCC_HSI_ON
    /\ PLLState (PLL osc) = RCC_PLL_ON
    /\ PLLSource (PLL osc) = RCC_PLLSOURCE_HSI
    /\ SYSCLKSource clk = RCC_SYSCLKSOURCE_PLLCLK
    /\ ClockType clk = [RCC_CLOCKTYPE_HCLK; RCC_CLOCKTYPE_SYSCLK;
                        RCC_CLOCKTYPE_PCLK1; RCC_CLOCKTYPE_PCLK2]
    /\ ahb_div (AHBCLKDivider clk) = 1
    /\ apb_div (APB1CLKDivider clk) = 2
    /\ apb_div (APB2CLKDivider clk) = 1
    /\ lat = FLASH_LATENCY_2
    /\ wait_states lat = 2.
Proof.
  do 3 eexists. split; [cbn; reflexivity|].
  repeat split.
Qed.

(* ===================================================================== *)
(** ** Error handling *)
(* ===================================================================== *)

(** C8: the statuses returned by the HAL are dropped: two environments,
    whatever status each gives to each call, see the same calls with the
    same arguments in the same order, for every length of run, and in
    neither does the program stop. *)
Theorem statuses_discarded (env1 env2 : responder) (fuel : nat) :
  trace fuel env1 0 main = trace fuel env2 0 main
  /\ compare_writes (trace fuel env1 0 main)
     = compare_writes (trace fuel env2 0 main)
  /\ exit_code fuel env1 0 main = exit_code fuel env2 0 main
  /\ exit_code fuel env1 0 main = None.
Proof.
  assert (E : trace fuel env1 0 main = trace fuel env2 0 main).
  { etransitivity; [apply trace_main_env | symmetry; apply trace_main_env]. }
  repeat split.
  - exact E.
  - rewrite E. reflexivity.
  - rewrite !exit_code_main. reflexivity.
  - apply exit_code_main.
Qed.

(* ===================================================================== *)
(** ** Range of the compare values *)
(* ===================================================================== *)

(** C9: the timer is initialised with period 19999, and every value that
    any run of [main] writes to the compare register is one of 50, 75,
    100, is not zero and is strictly below that period. *)
Theorem compare_values_in_range (env : responder) (fuel : nat) :
  exists h : TIM_HandleTypeDef,
    pwm_init_handle (trace 11 env 0 main) = Some h
    /\ Period (Init h) = 19999
    /\ Forall (fun v => In v [50; 75; 100] /\ 0 < v < Period (Init h))
         (compare_writes (trace fuel env 0 main)).
Proof.
  exists htim3_configured. split; [reflexivity|]. split; [reflexivity|].
  destruct (compare_writes_main_prefix fuel env) as [rest E].
  assert (H : Forall (fun v => In v [50; 75; 100]
                               /\ 0 < v < Period (Init htim3_configured))
                (concat (repeat [50; 75; 100] fuel))).
  { apply Forall_rounds.
    repeat (apply Forall_cons; [split; [simpl; tauto | cbn; lia]|]).
    apply Forall_nil. }
  rewrite E in H. apply Forall_app in H. apply H.
Qed.

(** C10: the channel is configured with pulse 75, the value of CENTER,
    before the PWM is started, no compare write precedes the start, and
    the first write of the loop is 50, the value of MIN: the compare
    register of the timer holds 75 with the output enabled once the PWM
    is started, and 50 only after the first write of the loop. *)
Theorem initial_position_center (env : responder) :
  exists (pre : list hal_call) (h : TIM_HandleTypeDef)
         (oc : TIM_OC_InitTypeDef),
    trace 12 env 0 main
    = pre ++ [ call (HAL_TIM_PWM_ConfigChannel h oc TIM_CHANNEL_1);
               call (HAL_TIM_PWM_Start h TIM_CHANNEL_1);
               call (__HAL_TIM_SET_COMPARE h TIM_CHANNEL_1 50) ]
    /\ Pulse oc = 75
    /\ Pulse oc = compare_value CENTER
    /\ 50 = compare_value MIN
    /\ compare_writes pre = []
    /\ existsb is_pwm_start pre = false
    /\ CC1E (hw_run TIM_reset (trace 10 env 0 main)) = false
    /\ hw_run TIM_reset (trace 11 env 0 main)
       = {| PSC := 83; ARR := 19999; CCR1 := 75; CC1E := true |}
    /\ hw_run TIM_reset (trace 12 env 0 main)
       = {| PSC := 83; ARR := 19999; CCR1 := 50; CC1E := true |}.
Proof.
  exists (firstn 9 (trace 12 env 0 main)).
  do 2 eexists. split; [cbn; reflexivity|].
  repeat split.
Qed.

(* ===================================================================== *)
(** ** Timing of the PWM signal *)
(* ===================================================================== *)

(** C2: the timer is initialised with prescaler register 84 - 1 and
    period register 20000 - 1; on a timer clock of 84 MHz the counter
    ticks at 1 MHz, the frame lasts (period + 1) / tick rate = 20 ms, and
    the frame frequency is 50 Hz. *)
Theorem frame_period_20ms (env : responder) :
  exists h : TIM_HandleTypeDef,
    pwm_init_handle (trace 11 env 0 main) = Some h
    /\ Prescaler (Init h) = 84 - 1
    /\ Period (Init h) = 20000 - 1
    /\ counter_tick_rate 84000000 (Init h) == 1000000 # 1
    /\ frame_period 84000000 (Init h) == 20 # 1000
    /\ pwm_frequency 84000000 (Init h) == 50 # 1.
Proof.
  exists htim3_configured.
  repeat split.
Qed.

(** C1, as the code has it: the loop writes 50, 75 and 100; at the tick
    rate of 1 MHz that the timer is configured for, these last 50, 75 and
    100 microseconds, a twentieth of the 1 ms, 1.5 ms and 2 ms that the
    comments beside the writes document. *)
Theorem pulse_widths_of_loop (env : responder) :
  compare_writes (trace 18 env 0 main) = map compare_value [MIN; CENTER; MAX]
  /\ counter_tick_rate 84000000 (Init htim3_configured) == 1000000 # 1
  /\ pulse_width 84000000 (Init htim3_configured) 50 == 50 # 1000000
  /\ pulse_width 84000000 (Init htim3_configured) 75 == 75 # 1000000
  /\ pulse_width 84000000 (Init htim3_configured) 100 == 100 # 1000000
  /\ map (fun p => Qeq_bool
                     (pulse_width 84000000 (Init htim3_configured)
                        (compare_value p))
                     (documented_pulse_width p))
       [MIN; CENTER; MAX]
     = [false; false; false]
  /\ map (fun p => Qeq_bool
                     (pulse_width 84000000 (Init htim3_configured)
                        (compare_value p) * (20 # 1))
                     (documented_pulse_width p))
       [MIN; CENTER; MAX]
     = [true; true; true].
Proof.
  repeat split.
Qed.

(** C7, as the code has it: the PLL settings (HSI at 16 MHz, M = 16,
    N = 336, P = 4) give a system clock of 84 MHz, which is also the clock
    of TIM3; the prescaler divides it by 84 and the period is 20000 ticks,
    so the PWM frequency is exactly 50 Hz; a compare value of 75 gives a
    pulse of 75 microseconds in the 20 ms frame, a duty cycle of 0.375 %,
    not the 1.5 ms and 7.5 % of the scenario. *)
Theorem end_to_end_scenario (env : responder) :
  exists (osc : RCC_OscInitTypeDef) (clk : RCC_ClkInitTypeDef)
         (h : TIM_HandleTypeDef),
    osc_config (trace 11 env 0 main) = Some osc
    /\ clock_config (trace 11 env 0 main) = Some clk
    /\ pwm_init_handle (trace 11 env 0 main) = Some h
    /\ PLLM (PLL osc) = 16
    /\ PLLN (PLL osc) = 336
    /\ pllp_div (PLLP (PLL osc)) = 4
    /\ pll_clock 16000000 (PLL osc) = 84000000
    /\ tim3_clock 84000000 clk = 84000000
    /\ Prescaler (Init h) + 1 = 84
    /\ Period (Init h) + 1 = 20000
    /\ pwm_frequency 84000000 (Init h) == 50 # 1
    /\ frame_period 84000000 (Init h) == 20 # 1000
    /\ pulse_width 84000000 (Init h) 75 == 75 # 1000000
    /\ Qeq_bool (pulse_width 84000000 (Init h) 75) (15 # 10000) = false
    /\ duty_cycle 84000000 (Init h) 75 == 375 # 100000
    /\ Qeq_bool (duty_cycle 84000000 (Init h) 75) (75 # 1000) = false.
Proof.
  do 3 eexists.
  split; [cbn; reflexivity|].
  split; [cbn; reflexivity|].
  split; [cbn; reflexivity|].
  repeat split.
Qed.

(* ===================================================================== *)
(** ** Order of the calls, pin routing, handles and the sweep schedule *)
(* ===================================================================== *)

(** Runs of [main]: the first eleven nodes by cases, the rest through the
    loop. *)
Ltac startup_cases fuel :=
  do 11 (destruct fuel as [|fuel]; [reflexivity|]);
  change (S (S (S (S (S (S (S (S (S (S (S fuel)))))))))))
    with (11 + fuel)%nat;
  rewrite trace_main_startup.

Lemma gpio_inits_loop (l : list hal_call) :
  forallb is_loop_call l = true -> gpio_inits l = [].
Proof.
  induction l as [|[T e] l IH]; simpl; [reflexivity|].
  intros H. apply andb_prop in H. destruct H as [Hc Hl].
  destruct e; try discriminate Hc; simpl; apply IH, Hl.
Qed.

Lemma timeline_extends (l r : list hal_call) :
  forall now : Z, exists rest, timeline now (l ++ r) = timeline now l ++ rest.
Proof.
  induction l as [|[T e] l IH]; intros now; simpl.
  - eexists; reflexivity.
  - destruct e; simpl; try apply IH.
    destruct (IH now) as [rest E]. exists rest. rewrite E. reflexivity.
Qed.

Lemma nth_position_next_round (j : nat) :
  nth_position (3 + j) = nth_position j.
Proof.
  unfold nth_position.
  replace (3 + j)%nat with (j + 1 * 3)%nat by lia.
  rewrite Nat.Div0.mod_add. reflexivity.
Qed.

Lemma map_seq_from {A} (f : nat -> A) (a n : nat) :
  map f (seq a n) = map (fun j => f (a + j)%nat) (seq 0 n).
Proof.
  revert a. induction n as [|n IH]; intros a; simpl.
  - reflexivity.
  - rewrite Nat.add_0_r. f_equal.
    rewrite (IH (S a)), <- seq_shift, map_map. apply map_ext. intros j.
    f_equal. lia.
Qed.

(** The writes of [k] rounds, on a clock that starts at [now]. *)
Lemma timeline_rounds (k : nat) (h : TIM_HandleTypeDef) :
  forall now : Z,
    timeline now (concat (repeat (round_calls h) k))
    = map (fun j => (now + 1000 * Z.of_nat j, compare_value (nth_position j)))
        (seq 0 (3 * k)).
Proof.
  induction k as [|k IH]; intros now; [reflexivity|].
  change (concat (repeat (round_calls h) (S k)))
    with (round_calls h ++ concat (repeat (round_calls h) k)).
  change (timeline now (round_calls h ++ concat (repeat (round_calls h) k)))
    with ((now, 50) :: (now + 1000, 75) :: (now + 1000 + 1000, 100)
          :: timeline (now + 1000 + 1000 + 1000)
               (concat (repeat (round_calls h) k))).
  rewrite IH.
  replace (3 * S k)%nat with (3 + 3 * k)%nat by lia.
  change (seq 0 (3 + 3 * k))
    with (0%nat :: 1%nat :: 2%nat :: seq 3 (3 * k)).
  cbn [map]. rewrite (map_seq_from _ 3 (3 * k)).
  do 3 (apply (f_equal2 cons);
        [apply (f_equal2 pair); [lia | reflexivity]|]).
  apply map_ext. intros j. rewrite nth_position_next_round.
  apply (f_equal2 pair); [lia | reflexivity].
Qed.

Lemma firstn_seq_min (m : nat) :
  forall a n : nat, firstn m (seq a n) = seq a (Nat.min m n).
Proof.
  induction m as [|m IH]; intros a [|n]; simpl; try reflexivity.
  rewrite IH. reflexivity.
Qed.

Lemma schedule_firstn (m n : nat) :
  firstn m (schedule n) = schedule (Nat.min m n).
Proof. unfold schedule. rewrite firstn_map, firstn_seq_min. reflexivity. Qed.

Lemma prefix_firstn {A} (l r m : list A) :
  m = l ++ r -> l = firstn (length l) m.
Proof.
  intros ->. rewrite firstn_app, Nat.sub_diag, firstn_all. simpl.
  rewrite app_nil_r. reflexivity.
Qed.

(** No peripheral is touched before its clock is switched on: in every
    run of [main] the voltage scaling is set only after the power
    interface clock is enabled, pins are initialised only after the clock
    of port A is enabled, and timer calls are made only after the clock of
    TIM3 is enabled; the startup does make each of these calls. *)
Theorem clock_gates_first (env : responder) (fuel : nat) :
  never_before is_pwr_clk_enable is_voltage_scaling (trace fuel env 0 main)
  = true
  /\ never_before is_gpioa_clk_enable is_gpio_init (trace fuel env 0 main)
     = true
  /\ never_before is_tim3_clk_enable is_timer_call (trace fuel env 0 main)
     = true
  /\ existsb is_voltage_scaling (trace 11 env 0 main) = true
  /\ existsb is_gpio_init (trace 11 env 0 main) = true
  /\ existsb is_timer_call (trace 11 env 0 main) = true.
Proof.
  split; [|split; [|split; [|repeat split]]];
    startup_cases fuel; reflexivity.
Qed.

(** The bring-up respects its dependencies in every run of [main]: the
    oscillator and PLL are configured before the system clock is switched,
    the system clock is switched before any pin or timer is configured,
    the timer base is initialised before its channel is configured, the
    channel is configured before the PWM is started, and the pin is routed
    before the PWM is started. *)
Theorem bring_up_order (env : responder) (fuel : nat) :
  never_before is_osc_config is_clock_switch (trace fuel env 0 main) = true
  /\ never_before is_clock_switch is_peripheral_call (trace fuel env 0 main)
     = true
  /\ never_before is_pwm_init is_config_channel (trace fuel env 0 main) = true
  /\ never_before is_config_channel is_pwm_start (trace fuel env 0 main)
     = true
  /\ never_before is_gpio_init is_pwm_start (trace fuel env 0 main) = true.
Proof.
  split; [|split; [|split; [|split]]];
    startup_cases fuel; reflexivity.
Qed.

(** Whatever the length of the run, [main] initialises pins at most once:
    from its seventh call on, the pin initialisations of the run are the
    single one made by [MX_GPIO_Init], on port A, whose mask has bit 6 and
    no other bit set, as alternate-function push-pull output without pull
    resistor at low speed; its alternate function is that of the timer
    which the handle of [MX_TIM3_Init] names, TIM3. *)
Theorem pin_routing (env : responder) (fuel : nat) (b : Z) :
  exists cfg : GPIO_InitTypeDef,
    gpio_inits (trace fuel env 0 main)
    = (if (7 <=? fuel)%nat then [(GPIOA, cfg)] else [])
    /\ Z.testbit (Pin cfg) b = (b =? 6)
    /\ Mode cfg = GPIO_MODE_AF_PP
    /\ Pull cfg = GPIO_NOPULL
    /\ Speed cfg = GPIO_SPEED_FREQ_LOW
    /\ af_timer (Alternate cfg) = Some TIM3
    /\ af_timer (Alternate cfg) = Instance htim3_configured.
Proof.
  exists {| Pin := GPIO_PIN_6; Mode := GPIO_MODE_AF_PP; Pull := GPIO_NOPULL;
            Speed := GPIO_SPEED_FREQ_LOW; Alternate := GPIO_AF2_TIM3 |}.
  split; [|split; [|repeat split]].
  - startup_cases fuel.
    change (gpio_inits
              (startup_calls ++ trace fuel env 11 (control_loop htim3_configured)))
      with ((GPIOA,
             {| Pin := GPIO_PIN_6; Mode := GPIO_MODE_AF_PP;
                Pull := GPIO_NOPULL; Speed := GPIO_SPEED_FREQ_LOW;
                Alternate := GPIO_AF2_TIM3 |})
            :: gpio_inits (trace fuel env 11 (control_loop htim3_configured))).
    rewrite (gpio_inits_loop _ (loop_calls_only fuel env 11 htim3_configured)).
    reflexivity.
  - change (Pin _) with (2 ^ 6).
    rewrite Z.pow2_bits_eqb by lia. apply Z.eqb_sym.
Qed.

(** Every timer call of every run of [main] (initialisation, channel
    configuration, start, compare write) is given the same handle, the one
    that [MX_TIM3_Init] leaves in the global; its instance is TIM3, never
    null, and the only channel named is channel 1. *)
Theorem timer_calls_target (env : responder) (fuel : nat) :
  Forall (on_timer TIM3 TIM_CHANNEL_1 htim3_configured)
    (trace fuel env 0 main).
Proof.
  destruct (trace_main_prefix fuel env) as [rest E].
  assert (H : Forall (on_timer TIM3 TIM_CHANNEL_1 htim3_configured)
                (startup_calls
                 ++ concat (repeat (round_calls htim3_configured) fuel))).
  { apply Forall_app. split; [|apply Forall_rounds];
      repeat (apply Forall_cons; [cbv; auto|]); apply Forall_nil. }
  rewrite E in H. apply Forall_app in H. apply H.
Qed.

(** The sweep keeps a fixed schedule: the startup requests no delay, and
    after [k] rounds of the loop the [j]-th write ([j] from 0) has been
    preceded by exactly [1000 * j] ms of requested delay and carries the
    value of position [j mod 3], so that a position recurs every 3000 ms;
    the writes of a run of any length are a beginning of this schedule. *)
Theorem write_schedule (env : responder) :
  (forall k : nat, timeline 0 (trace (11 + 7 * k) env 0 main) = schedule (3 * k))
  /\ (forall fuel : nat, exists n : nat,
         timeline 0 (trace fuel env 0 main) = schedule n).
Proof.
  assert (R : forall k : nat,
             timeline 0 (trace (11 + 7 * k) env 0 main) = schedule (3 * k)).
  { intros k. rewrite trace_main_rounds.
    change (timeline 0
              (startup_calls ++ concat (repeat (round_calls htim3_configured) k)))
      with (timeline 0 (concat (repeat (round_calls htim3_configured) k))).
    rewrite timeline_rounds. reflexivity. }
  split; [exact R|].
  intros fuel.
  destruct (trace_main_prefix fuel env) as [rest E].
  destruct (timeline_extends (trace fuel env 0 main) rest 0) as [more T].
  rewrite <- E, <- trace_main_rounds with (env := env), R in T.
  exists (Nat.min (length (timeline 0 (trace fuel env 0 main))) (3 * fuel)).
  rewrite <- schedule_firstn. apply (prefix_firstn _ _ T).
Qed.

(** The checkers do reject what they should, and the schedule of two
    rounds reads as expected. *)
Example never_before_rejects (h : TIM_HandleTypeDef) :
  never_before is_tim3_clk_enable is_timer_call
    [call (HAL_TIM_PWM_Init h); call __HAL_RCC_TIM3_CLK_ENABLE] = false.
Proof. reflexivity. Qed.

Example timeline_two_rounds :
  timeline 0 (trace 25 all_ok 0 main)
  = [(0, 50); (1000, 75); (2000, 100); (3000, 50); (4000, 75); (5000, 100)].
Proof. reflexivity. Qed.

Example schedule_four :
  schedule 4 = [(0, 50); (1000, 75); (2000, 100); (3000, 50)].
Proof. reflexivity. Qed.
